(** * first-flask: the greeting application of [app.py]

    [app.py] builds one process-wide [Flask] object, registers the view
    [home_page] under the URL rule ['/'] with the [route] decorator and does
    nothing else.  Everything a client can observe is therefore decided by
    three things: the body of [home_page], the arguments the module passes to
    the framework ([Flask(__name__)], [app.route('/')] without a [methods]
    list), and the framework's request dispatch.

    The development has these layers.
    - [Werkzeug]: URL rules, the matcher and the response object, as far as
      the two rules of this application exercise them.
    - [Flask]: the application object, [add_url_rule], [route], and the
      state-and-exception monad in which Python code runs.
    - [AppPy]: the module [app.py] itself; [Serving]: the request path
      [wsgi_app] -> [full_dispatch_request] -> [dispatch_request] ->
      [make_response] that calls back into it.

    Flask and Werkzeug are dependencies of the repository, not part of it,
    and the repository pins no version of them.  Their functions are
    transcribed here from the current major versions (Flask 3: [flask/app.py],
    [flask/sansio/app.py], [flask/sansio/scaffold.py], [flask/ctx.py];
    Werkzeug 3: [werkzeug/routing], [werkzeug/wrappers/response.py],
    [werkzeug/exceptions.py]), for exactly the calls [app.py] makes and with
    every argument that [app.py] does not pass at its default.  Two things
    the framework computes from the machine it runs on stay parameters: what
    [send_from_directory] finds in the static folder, and the text of the
    default error pages. *)

From stdpp Require Import base decidable option list gmap strings.
From Stdlib Require Import ZArith Ascii String.

Local Open Scope string_scope.
Local Open Scope Z_scope.

(** ** Python strings *)

Module PyStr.

(** [str.upper] on the characters an HTTP method token can hold.  Python
    also changes letters outside ASCII, but never into an ASCII letter, so
    comparisons with ["GET"], ["HEAD"] and ["OPTIONS"] are not affected. *)
Definition upper_ascii (c : ascii) : ascii :=
  let n := nat_of_ascii c in
  if ((97 <=? n) && (n <=? 122))%nat then ascii_of_nat (n - 32) else c.

Fixpoint upper (s : string) : string :=
  match s with
  | EmptyString => EmptyString
  | String c s' => String (upper_ascii c) (upper s')
  end.

(** [s.lstrip("/")] *)
Fixpoint lstrip_slash (s : string) : string :=
  match s with
  | String "/" s' => lstrip_slash s'
  | _ => s
  end.

(** [re.sub("/{2,}?", "/", s)]: every run of slashes becomes one slash. *)
Fixpoint merge_slashes (s : string) : string :=
  match s with
  | String "/" s' =>
      match s' with
      | String "/" _ => merge_slashes s'
      | _ => String "/" (merge_slashes s')
      end
  | String c s' => String c (merge_slashes s')
  | EmptyString => EmptyString
  end.

(** [s.endswith(">")] and the like *)
Definition endswith (suffix s : string) : bool :=
  let n := String.length s in
  let k := String.length suffix in
  if (k <=? n)%nat then String.eqb (substring (n - k) k s) suffix else false.

End PyStr.

(** ** Exceptions

    The exception classes that the request path can meet.  [NotFound],
    [MethodNotAllowed], [RequestRedirect] and [InternalServerError] are
    [werkzeug.exceptions.HTTPException] subclasses and double as responses;
    the others are ordinary Python exceptions.  [new_url] of a redirect is
    kept as the path it points to, without scheme and host. *)

Inductive Exn : Type :=
| NotFound
| MethodNotAllowed (valid_methods : gset string)
| RequestRedirect (new_url : string)
| AssertionError (msg : string)
| KeyError (key : string)
| TypeError (msg : string)
| AttributeError (msg : string)
| RuntimeError (msg : string)
| OSError (msg : string)
| InternalServerError.

Inductive outcome (A : Type) : Type :=
| Returns (a : A)
| Raises (e : Exn).
Arguments Returns {A} a.
Arguments Raises {A} e.

(** [code] of an [HTTPException]; [None] for an exception that is not one. *)
Definition http_code (e : Exn) : option Z :=
  match e with
  | NotFound => Some 404
  | MethodNotAllowed _ => Some 405
  | RequestRedirect _ => Some 308
  | InternalServerError => Some 500
  | _ => None
  end.

(** ** Werkzeug: rules, matching, responses *)

Module Werkzeug.
Import PyStr.

(** Keyword arguments extracted from the URL, [request.view_args]. *)
Definition view_args := list (string * string).

(** [werkzeug.routing.Rule], the attributes the dispatch reads. *)
Record Rule : Type := mkRule {
  rule : string;
  methods : gset string;
  endpoint : string;
  provide_automatic_options : bool
}.

(** [Rule.__init__]: method names are upper-cased and [HEAD] is added
    whenever [GET] is present. *)
Definition Rule_init (r : string) (ms : gset string) (ep : string) : Rule :=
  let ms := set_map (D := gset string) upper ms in
  let ms := (if decide (("HEAD" ∉ ms) ∧ ("GET" ∈ ms)) then ms ∪ {["HEAD"]} else ms) in
  {| rule := r; methods := ms; endpoint := ep;
     provide_automatic_options := false |}.

(** What follows a ["<"] in a rule: ["path:NAME>"] closing the rule.  This
    is the only converter the application's URL map contains (in the
    framework's static rule); any other converter text matches nothing. *)
Definition path_converter (after_lt : string) : option string :=
  if String.prefix "path:" after_lt && endswith ">" after_lt
  then Some (substring 5 (String.length after_lt - 6) after_lt)
  else None.

(** One rule against one path.  Literal text must agree character by
    character; a final [<path:NAME>] takes the rest of the path, which must
    be non-empty and must not begin with a slash (the converter's regular
    expression is [[^/].*?]). *)
Fixpoint match_rule (pat path : string) : option view_args :=
  match pat with
  | EmptyString =>
      match path with EmptyString => Some [] | _ => None end
  | String "<" after_lt =>
      match path_converter after_lt, path with
      | Some name, String c _ =>
          if Ascii.eqb c "/" then None else Some [(name, path)]
      | _, _ => None
      end
  | String c pat' =>
      match path with
      | String d path' => if Ascii.eqb c d then match_rule pat' path' else None
      | EmptyString => None
      end
  end.

(** One pass of the matcher over the rules: the first rule that matches the
    path and allows the method; the methods of the rules that match the
    path only are collected in [have_match_for]. *)
Fixpoint match_pass (rules : list Rule) (path meth : string)
    (have_match_for : gset string) : option (Rule * view_args) * gset string :=
  match rules with
  | [] => (None, have_match_for)
  | r :: rules' =>
      match match_rule (rule r) path with
      | Some args =>
          if decide (meth ∈ methods r) then (Some (r, args), have_match_for)
          else match_pass rules' path meth (have_match_for ∪ methods r)
      | None => match_pass rules' path meth have_match_for
      end
  end.

(** [SlashRequired]: the path with one more slash is a rule (rules are
    strict about their trailing slash) that allows the method. *)
Definition slash_required (rules : list Rule) (path meth : string) : bool :=
  existsb (fun r => endswith "/" (rule r)
                    && bool_decide (meth ∈ methods r)
                    && bool_decide (is_Some (match_rule (rule r) (path ++ "/"))))
          rules.

(** The path the matcher works on: [f"/{path_info.lstrip('/')}" if path_info
    else ""]. *)
Definition path_part (path_info : string) : string :=
  match path_info with
  | EmptyString => EmptyString
  | _ => "/" ++ lstrip_slash path_info
  end.

(** [MapAdapter.match(path_info, method, return_rule=True)] *)
Definition url_match (rules : list Rule) (path_info meth : string)
    : outcome (Rule * view_args) :=
  let meth := upper meth in
  let path_part := path_part path_info in
  match match_pass rules path_part meth ∅ with
  | (Some rv, _) => Returns rv
  | (None, have1) =>
      if slash_required rules path_part meth
      then Raises (RequestRedirect (path_part ++ "/"))
      else
        let merged := merge_slashes path_part in
        match match_pass rules merged meth have1 with
        | (Some _, _) => Raises (RequestRedirect merged)
        | (None, have2) =>
            if slash_required rules merged meth
            then Raises (RequestRedirect (merged ++ "/"))
            else if decide (have2 = ∅) then Raises NotFound
            else Raises (MethodNotAllowed have2)
        end
  end.

(** [MapAdapter.allowed_methods]: match with the impossible method ["--"]
    and read the methods off the [MethodNotAllowed]. *)
Definition allowed_methods (rules : list Rule) (path_info : string) : gset string :=
  match url_match rules path_info "--" with
  | Raises (MethodNotAllowed valid) => valid
  | _ => ∅
  end.

(** [werkzeug.wrappers.Response].  [allow] and [location] are the two
    headers the framework sets on this application's responses; [Allow] is
    kept as the set it is built from, since the order in which Python
    iterates that set is not fixed. *)
Record Response : Type := mkResponse {
  status_code : Z;
  mimetype : string;
  allow : gset string;
  location : option string;
  data : string
}.

(** [Response(body)] with the class defaults: status 200, [text/html]. *)
Definition Response_init (body : string) : Response :=
  {| status_code := 200; mimetype := "text/html"; allow := ∅;
     location := None; data := body |}.

(** [Response.get_app_iter(environ)]: the body that goes on the wire is
    empty for a [HEAD] request and for the statuses that carry none. *)
Definition get_app_iter (request_method : string) (r : Response) : string :=
  let status := status_code r in
  if String.eqb request_method "HEAD"
     || ((100 <=? status) && (status <? 200))
     || (status =? 204) || (status =? 304)
  then "" else data r.

End Werkzeug.

(** ** Flask: the application object and the process state *)

(** Function objects.  A Python function value is a reference to code; the
    process holds two that can become views: the function that [app.py]
    defines, and the closure that [Flask.__init__] creates for the static
    rule, which passes its keyword arguments on to [send_static_file]. *)
Inductive ViewFunc : Type :=
| fn_home_page
| fn_static.

Global Instance ViewFunc_eq_dec : EqDecision ViewFunc.
Proof. solve_decision. Defined.

(** [f.__name__] *)
Definition dunder_name (f : ViewFunc) : string :=
  match f with
  | fn_home_page => "home_page"
  | fn_static => "<lambda>"
  end.

Module Flask.
Import PyStr Werkzeug.

(** The [Flask] object: the attributes that [app.py] and the dispatch of
    its requests read or write.  Handler registries that [app.py] never
    fills (before/after-request functions, error handlers, blueprints) are
    empty throughout and are left out. *)
Record App : Type := mkApp {
  import_name : string;
  static_folder : option string;
  url_map : list Rule;
  view_functions : gmap string ViewFunc;
  got_first_request : bool
}.

Definition has_static_folder (self : App) : bool :=
  bool_decide (is_Some (static_folder self)).

(** [static_url_path]: ["/" + basename(static_folder)]; the default folder
    name has no directory part, so it is its own basename. *)
Definition static_url_path (self : App) : string :=
  match static_folder self with
  | Some folder => "/" ++ folder
  | None => ""
  end.

(** [Flask.add_url_rule(rule, endpoint, view_func,
    provide_automatic_options, methods=...)].  A setup method: it refuses to
    run once a request has been handled. *)
Definition add_url_rule (r : string) (ep : option string)
    (view_func : option ViewFunc) (pao : option bool)
    (ms : option (gset string)) (self : App) : outcome App :=
  if got_first_request self
  then Raises (AssertionError "setup method called after the first request")
  else
    match ep, view_func with
    | None, None => Raises (AssertionError "expected view func if endpoint is not provided")
    | _, _ =>
      let ep := match ep, view_func with
                | Some e, _ => e
                | None, Some f => dunder_name f
                | None, None => ""
                end in
      let ms := match ms with Some ms => ms | None => {["GET"]} end in
      let ms := set_map (D := gset string) upper ms in
      let '(pao, required_methods) :=
        match pao with
        | Some b => (b, ∅)
        | None => if decide ("OPTIONS" ∉ ms)
                  then (true, ({["OPTIONS"]} : gset string))
                  else (false, ∅)
        end in
      let ms := ms ∪ required_methods in
      let rule_obj :=
        let r0 := Rule_init r ms ep in
        {| rule := rule r0; methods := methods r0; endpoint := endpoint r0;
           provide_automatic_options := pao |} in
      let urls := (url_map self ++ [rule_obj])%list in
      match view_func with
      | None =>
          Returns {| import_name := import_name self;
                     static_folder := static_folder self;
                     url_map := urls;
                     view_functions := view_functions self;
                     got_first_request := got_first_request self |}
      | Some f =>
          match view_functions self !! ep with
          | Some old_func =>
              if decide (old_func = f)
              then Returns {| import_name := import_name self;
                              static_folder := static_folder self;
                              url_map := urls;
                              view_functions := <[ep := f]> (view_functions self);
                              got_first_request := got_first_request self |}
              else Raises (AssertionError
                     "View function mapping is overwriting an existing endpoint function")
          | None =>
              Returns {| import_name := import_name self;
                         static_folder := static_folder self;
                         url_map := urls;
                         view_functions := <[ep := f]> (view_functions self);
                         got_first_request := got_first_request self |}
          end
      end
    end.

(** [Flask.route(rule, **options)] applied to a function: the decorator
    registers [f] and hands it back unchanged.  [options] holds at most a
    [methods] list. *)
Definition route (r : string) (ms : option (gset string)) (f : ViewFunc)
    (self : App) : outcome (ViewFunc * App) :=
  match add_url_rule r None (Some f) None ms self with
  | Returns self' => Returns (f, self')
  | Raises e => Raises e
  end.

(** [Flask(import_name)] with every other argument at its default:
    [static_folder="static"], and hence the rule that serves it. *)
Definition Flask_init (name : string) : outcome App :=
  let self := {| import_name := name; static_folder := Some "static";
                 url_map := []; view_functions := ∅;
                 got_first_request := false |} in
  if has_static_folder self
  then add_url_rule (static_url_path self ++ "/<path:filename>")
         (Some "static") (Some fn_static) None None self
  else Returns self.

(** *** Requests and the process state *)

(** The WSGI environment of one request. *)
Record Environ : Type := mkEnviron {
  REQUEST_METHOD : string;
  PATH_INFO : string;
  QUERY_STRING : string;
  HTTP_headers : list (string * string);
  wsgi_input : string
}.

(** [flask.Request]: the environment plus what [match_request] stores. *)
Record Request : Type := mkRequest {
  environ : Environ;
  url_rule : option Rule;
  req_view_args : view_args;
  routing_exception : option Exn
}.

(** [request.method] *)
Definition method (req : Request) : string := upper (REQUEST_METHOD (environ req)).

(** [request.path] *)
Definition path (req : Request) : string := "/" ++ lstrip_slash (PATH_INFO (environ req)).

(** Everything a view or the dispatch could read or change: the module
    global [app], the stack of request contexts behind [flask.request],
    and the lines written to the application's logger. *)
Record World : Type := mkWorld {
  g_app : App;
  request_ctx : list Request;
  log : list string
}.

(** Python code: it runs in a state, returns or raises, and leaves a
    state. *)
Definition Py (A : Type) : Type := World → outcome A * World.

Global Instance Py_ret : MRet Py := λ A a w, (Returns a, w).

Global Instance Py_bind : MBind Py := λ A B k m w,
  match m w with
  | (Returns a, w') => k a w'
  | (Raises e, w') => (Raises e, w')
  end.

Definition raise {A : Type} (e : Exn) : Py A := λ w, (Raises e, w).

(** [try: m except Exception as e: h(e)] *)
Definition try_except {A : Type} (m : Py A) (h : Exn → Py A) : Py A := λ w,
  match m w with
  | (Returns a, w') => (Returns a, w')
  | (Raises e, w') => h e w'
  end.

(** [try: m finally: f] *)
Definition try_finally {A : Type} (m : Py A) (f : World → World) : Py A := λ w,
  let '(r, w') := m w in (r, f w').

Definition get_world : Py World := λ w, (Returns w, w).
Definition modify_world (f : World → World) : Py unit := λ w, (Returns (), f w).

End Flask.

(** ** The module [app.py] *)

Module AppPy.
Import Werkzeug Flask.

(** [def home_page(): return "Hello from my Flask app!"] *)
Definition home_page : Py string :=
  mret "Hello from my Flask app!".

(** The module body, top to bottom: [app = Flask(__name__)], then the
    [def], then the decorator, whose result is bound to [home_page].  The
    value is the pair of module globals [(app, home_page)]. *)
Definition module_body (__name__ : string) : outcome (App * ViewFunc) :=
  match Flask_init __name__ with
  | Raises e => Raises e
  | Returns app =>
      match route "/" None fn_home_page app with
      | Raises e => Raises e
      | Returns (home_page, app) => Returns (app, home_page)
      end
  end.

(** The methods of a rule registered without a [methods] list: [GET] by
    default, [HEAD] from [Rule.__init__], [OPTIONS] from [add_url_rule]. *)
Definition default_methods : gset string := {["GET"; "HEAD"; "OPTIONS"]}.

(** The rule the decorator leaves in the URL map. *)
Definition root_rule : Rule :=
  {| rule := "/"; methods := default_methods;
     endpoint := "home_page"; provide_automatic_options := true |}.

(** The rule [Flask.__init__] leaves in the URL map. *)
Definition static_rule : Rule :=
  {| rule := "/static/<path:filename>"; methods := default_methods;
     endpoint := "static"; provide_automatic_options := true |}.

(** The global [app] once the module has been imported. *)
Definition app (__name__ : string) : App :=
  {| import_name := __name__;
     static_folder := Some "static";
     url_map := [static_rule; root_rule];
     view_functions := <["home_page" := fn_home_page]> (<["static" := fn_static]> ∅);
     got_first_request := false |}.

End AppPy.

(** ** Serving a request *)

Module Serving.
Import PyStr Werkzeug Flask AppPy.

(** What a view may return, as far as the two views of this process go:
    a [str], a response object, or (from [handle_user_exception]) an
    [HTTPException], which is a response too. *)
Inductive ResponseValue : Type :=
| RvStr (s : string)
| RvResponse (r : Response)
| RvException (e : Exn).

Section Dispatch.

(** [flask.send_from_directory(directory, path)]: what the file system
    holds under the static folder decides it. *)
Variable send_from_directory : string → string → outcome Response.

(** [HTTPException.get_body]: the framework's default error page. *)
Variable get_body : Exn → string.

Definition send_static_file (filename : string) : Py Response :=
  w ← get_world;
  match static_folder (g_app w) with
  | None => raise (RuntimeError "'static_folder' must be set to serve static_files.")
  | Some folder =>
      match send_from_directory folder filename with
      | Returns r => mret r
      | Raises e => raise e
      end
  end.

(** Calling a function object with keyword arguments. *)
Definition call (f : ViewFunc) (kwargs : view_args) : Py ResponseValue :=
  match f, kwargs with
  | fn_home_page, [] => s ← home_page; mret (RvStr s)
  | fn_home_page, _ :: _ =>
      raise (TypeError "home_page() got an unexpected keyword argument")
  | fn_static, [(k, v)] =>
      if String.eqb k "filename"
      then r ← send_static_file v; mret (RvResponse r)
      else raise (TypeError "send_static_file() got an unexpected keyword argument")
  | fn_static, _ =>
      raise (TypeError "send_static_file() missing or unexpected arguments")
  end.

(** [HTTPException.get_response] *)
Definition get_response (e : Exn) (code : Z) : Response :=
  {| status_code := code;
     mimetype := "text/html";
     allow := match e with MethodNotAllowed valid => valid | _ => ∅ end;
     location := match e with RequestRedirect url => Some url | _ => None end;
     data := get_body e |}.

(** [Flask.make_response] *)
Definition make_response (rv : ResponseValue) : Py Response :=
  match rv with
  | RvStr s => mret (Response_init s)
  | RvResponse r => mret r
  | RvException e =>
      match http_code e with
      | Some code => mret (get_response e code)
      | None => raise (TypeError "The view function did not return a valid response.")
      end
  end.

(** [Flask.request_context(environ)] *)
Definition request_context (env : Environ) : Request :=
  {| environ := env; url_rule := None; req_view_args := [];
     routing_exception := None |}.

(** [RequestContext.match_request] *)
Definition match_request (self : App) (req : Request) : Request :=
  match url_match (url_map self) (PATH_INFO (environ req))
                  (REQUEST_METHOD (environ req)) with
  | Returns (r, args) =>
      {| environ := environ req; url_rule := Some r; req_view_args := args;
         routing_exception := None |}
  | Raises e =>
      {| environ := environ req; url_rule := url_rule req;
         req_view_args := req_view_args req; routing_exception := Some e |}
  end.

(** [RequestContext.push] *)
Definition push (req : Request) : Py unit :=
  modify_world (λ w,
    {| g_app := g_app w;
       request_ctx := match_request (g_app w) req :: request_ctx w;
       log := log w |}).

(** [RequestContext.pop] *)
Definition pop (w : World) : World :=
  {| g_app := g_app w; request_ctx := tail (request_ctx w); log := log w |}.

(** [flask.request], the proxy to the top of the context stack *)
Definition current_request : Py Request :=
  w ← get_world;
  match request_ctx w with
  | req :: _ => mret req
  | [] => raise (RuntimeError "Working outside of request context.")
  end.

(** [Flask.make_default_options_response] *)
Definition make_default_options_response : Py Response :=
  req ← current_request;
  w ← get_world;
  let ms := allowed_methods (url_map (g_app w)) (PATH_INFO (environ req)) in
  mret {| status_code := status_code (Response_init "");
          mimetype := mimetype (Response_init "");
          allow := ms;
          location := location (Response_init "");
          data := data (Response_init "") |}.

(** [Flask.dispatch_request] *)
Definition dispatch_request : Py ResponseValue :=
  req ← current_request;
  match routing_exception req with
  | Some e => raise e
  | None =>
      match url_rule req with
      | None => raise (AttributeError "'NoneType' object has no attribute 'endpoint'")
      | Some r =>
          if provide_automatic_options r && String.eqb (method req) "OPTIONS"
          then resp ← make_default_options_response; mret (RvResponse resp)
          else
            w ← get_world;
            match view_functions (g_app w) !! endpoint r with
            | Some f => call f (req_view_args req)
            | None => raise (KeyError (endpoint r))
            end
      end
  end.

(** [Flask.handle_user_exception]: no error handler is registered, so an
    [HTTPException] is returned as the response and anything else is
    raised again. *)
Definition handle_user_exception (e : Exn) : Py ResponseValue :=
  match http_code e with
  | Some _ => mret (RvException e)
  | None => raise e
  end.

(** [Flask.finalize_request]: [make_response], then [process_response],
    which has nothing to run (no after-request function, null session). *)
Definition finalize_request (rv : ResponseValue) : Py Response :=
  make_response rv.

(** [Flask.full_dispatch_request] *)
Definition full_dispatch_request : Py Response :=
  modify_world (λ w,
    {| g_app := {| import_name := import_name (g_app w);
                   static_folder := static_folder (g_app w);
                   url_map := url_map (g_app w);
                   view_functions := view_functions (g_app w);
                   got_first_request := true |};
       request_ctx := request_ctx w;
       log := log w |});;
  rv ← try_except dispatch_request handle_user_exception;
  finalize_request rv.

(** [Flask.handle_exception]: log, then answer with a 500. *)
Definition handle_exception (e : Exn) : Py Response :=
  req ← current_request;
  modify_world (λ w,
    {| g_app := g_app w; request_ctx := request_ctx w;
       log := (log w ++ [("Exception on " ++ path req ++ " [" ++ method req ++ "]")%string])%list |});;
  finalize_request (RvException InternalServerError).

(** [Response.get_wsgi_response(environ)] *)
Definition get_wsgi_response (env : Environ) (r : Response) : Response :=
  {| status_code := status_code r; mimetype := mimetype r; allow := allow r;
     location := location r; data := get_app_iter (REQUEST_METHOD env) r |}.

(** [Flask.wsgi_app(environ, start_response)] *)
Definition wsgi_app (env : Environ) : Py Response :=
  try_finally
    (response ← try_except (push (request_context env);; full_dispatch_request)
                           handle_exception;
     mret (get_wsgi_response env response))
    pop.

(** One request after another, each in the state the last one left. *)
Fixpoint serve (envs : list Environ) : Py (list Response) :=
  match envs with
  | [] => mret []
  | env :: envs' =>
      r ← wsgi_app env;
      rs ← serve envs';
      mret (r :: rs)
  end.

(** The view that [dispatch_request] is going to call for a request, with
    its keyword arguments: none when routing fails and none when the
    automatic [OPTIONS] answer takes over. *)
Definition view_of (self : App) (env : Environ) : option (ViewFunc * view_args) :=
  match url_match (url_map self) (PATH_INFO env) (REQUEST_METHOD env) with
  | Returns (r, args) =>
      if provide_automatic_options r && String.eqb (upper (REQUEST_METHOD env)) "OPTIONS"
      then None
      else match view_functions self !! endpoint r with
           | Some f => Some (f, args)
           | None => None
           end
  | Raises _ => None
  end.

(** The state in which the view runs: context pushed, first request noted. *)
Definition in_context (env : Environ) (w : World) : World :=
  {| g_app := {| import_name := import_name (g_app w);
                 static_folder := static_folder (g_app w);
                 url_map := url_map (g_app w);
                 view_functions := view_functions (g_app w);
                 got_first_request := true |};
     request_ctx := match_request (g_app w) (request_context env) :: request_ctx w;
     log := log w |}.

(** Starting the process: the module body runs; no request context exists
    and nothing has been logged. *)
Definition import_module (__name__ : string) : outcome World :=
  match module_body __name__ with
  | Returns (app, _) => Returns {| g_app := app; request_ctx := []; log := [] |}
  | Raises e => Raises e
  end.

(** The states a run of the process goes through: the import, then one
    request after another. *)
Inductive reachable (__name__ : string) : World → Prop :=
| reach_import w :
    import_module __name__ = Returns w → reachable __name__ w
| reach_request env w :
    reachable __name__ w → reachable __name__ (snd (wsgi_app env w)).

End Dispatch.

(** The process right after [import app]. *)
Definition imported (__name__ : string) : World :=
  {| g_app := app __name__; request_ctx := []; log := [] |}.

(** *** Sample surroundings and requests *)

(** A checkout of the repository as it is: no [static] directory, so
    [send_from_directory] finds nothing. *)
Definition no_static_files (directory filename : string) : outcome Response :=
  Raises NotFound.

(** An error page reduced to the name of the error. *)
Definition plain_error_page (e : Exn) : string :=
  match e with
  | NotFound => "Not Found"
  | MethodNotAllowed _ => "Method Not Allowed"
  | RequestRedirect _ => "Redirecting..."
  | _ => "Internal Server Error"
  end.

(** An error page with no text at all. *)
Definition blank_error_page (e : Exn) : string := "".

Definition bare_request (meth path : string) : Environ :=
  {| REQUEST_METHOD := meth; PATH_INFO := path; QUERY_STRING := "";
     HTTP_headers := []; wsgi_input := "" |}.

Definition get_root : Environ := bare_request "GET" "/".

(** [GET /?lang=fr] with a cookie, an [Accept] header and a body. *)
Definition busy_get_root : Environ :=
  {| REQUEST_METHOD := "GET"; PATH_INFO := "/"; QUERY_STRING := "lang=fr";
     HTTP_headers := [("Cookie", "session=abc"); ("Accept", "application/json")];
     wsgi_input := "{}" |}.

End Serving.

(** * Properties *)

Import PyStr Werkzeug Flask AppPy Serving.

(** ** The module body *)

(** Importing [app.py] raises nothing and leaves the globals [app] and
    [home_page] as described by [AppPy.app]. *)
Lemma module_body_returns (__name__ : string) :
  module_body __name__ = Returns (app __name__, fn_home_page).
Proof. reflexivity. Qed.

Lemma import_module_returns (__name__ : string) :
  import_module __name__ = Returns (imported __name__).
Proof. reflexivity. Qed.

(** ** Routing *)

Section Routing.

Lemma match_pass_sound rules p u h r args h' :
  match_pass rules p u h = (Some (r, args), h') →
  r ∈ rules ∧ u ∈ methods r ∧ match_rule (rule r) p = Some args.
Proof.
  revert h. induction rules as [|r0 rules IH]; intros h; simpl; [done|].
  destruct (match_rule (rule r0) p) as [a|] eqn:Hr0.
  - destruct (decide (u ∈ methods r0)) as [Hin|Hnin].
    + intros [= -> -> _]. split_and!; [left|done..].
    + intros H. destruct (IH _ H) as (? & ? & ?). split_and!; [by right|done..].
  - intros H. destruct (IH _ H) as (? & ? & ?). split_and!; [by right|done..].
Qed.

(** A successful match names a rule of the map that matches the path and
    allows the method. *)
Lemma url_match_sound rules p m r args :
  url_match rules p m = Returns (r, args) →
  r ∈ rules ∧ upper m ∈ methods r ∧ match_rule (rule r) (path_part p) = Some args.
Proof.
  unfold url_match.
  destruct (match_pass _ _ _ ∅) as [[[r1 a1]|] h1] eqn:H1.
  - intros [= -> ->]. by eapply match_pass_sound.
  - repeat case_match; done.
Qed.

(** A failed match is one of the three routing errors, none of them 200. *)
Lemma url_match_raises rules p m e :
  url_match rules p m = Raises e →
  ∃ c, http_code e = Some c ∧ (c = 404 ∨ c = 405 ∨ c = 308).
Proof.
  unfold url_match. intros H.
  repeat case_match; simplify_eq; simpl; eauto.
Qed.

Lemma slash_required_no_match rules p u :
  Forall (λ r, match_rule (rule r) (p ++ "/") = None) rules →
  slash_required rules p u = false.
Proof.
  unfold slash_required. intros Hall.
  induction Hall as [|r rules Hr _ IH]; simpl; [done|].
  rewrite Hr, IH.
  rewrite (bool_decide_eq_false_2 (is_Some None)) by (by intros [? ?]).
  by rewrite andb_false_r.
Qed.

(** The only path the rule ['/'] matches is ["/"], with no arguments. *)
Lemma match_root_rule p args :
  match_rule (rule root_rule) p = Some args → p = "/" ∧ args = [].
Proof.
  destruct p as [|c [|d p]]; cbn -[Ascii.eqb]; try done.
  - destruct (Ascii.eqb_spec "/" c) as [<-|]; [|done]. by intros [= <-].
  - by destruct (Ascii.eqb "/" c).
Qed.

(** Matching ["/"] against the application's URL map. *)
Lemma url_match_root n m :
  url_match (url_map (app n)) "/" m =
    if decide (upper m ∈ default_methods) then Returns (root_rule, [])
    else Raises (MethodNotAllowed default_methods).
Proof.
  unfold url_match. set (u := upper m).
  change (path_part "/") with "/".
  change (merge_slashes "/") with "/".
  assert (Hslash : slash_required (url_map (app n)) "/" u = false).
  { apply slash_required_no_match. by repeat constructor. }
  assert (Hpass : ∀ h, match_pass (url_map (app n)) "/" u h =
            if decide (u ∈ default_methods) then (Some (root_rule, []), h)
            else (None, h ∪ default_methods)).
  { intros h. cbn [app url_map match_pass].
    change (match_rule (rule static_rule) "/") with (@None view_args).
    change (match_rule (rule root_rule) "/") with (Some ([] : view_args)).
    cbv iota. change (methods root_rule) with default_methods.
    by destruct (decide _). }
  rewrite Hpass. destruct (decide (u ∈ default_methods)) as [Hin|Hnin]; [done|].
  rewrite Hslash, Hpass. cbv beta iota.
  rewrite decide_False by (unfold default_methods; set_solver).
  by replace (∅ ∪ default_methods ∪ default_methods) with default_methods
    by set_solver.
Qed.

Lemma allowed_methods_root n :
  allowed_methods (url_map (app n)) "/" = default_methods.
Proof.
  unfold allowed_methods. rewrite url_match_root.
  by rewrite decide_False by (by vm_compute).
Qed.

End Routing.

(** ** One request through [wsgi_app] *)

Section Requests.

Variable send_from_directory : string → string → outcome Response.
Variable get_body : Exn → string.

Local Abbreviation wsgi_app := (wsgi_app send_from_directory get_body).
Local Abbreviation reachable := (reachable send_from_directory get_body).

Ltac unfold_py :=
  unfold Serving.wsgi_app, full_dispatch_request, handle_exception,
    dispatch_request, make_default_options_response, current_request,
    handle_user_exception, finalize_request, make_response, push,
    try_finally, try_except, modify_world, get_world, raise;
  unfold mbind, mret, Py_bind, Py_ret.

(** A routing error becomes the response of that error. *)
Lemma wsgi_app_routing_error env w e c :
  url_match (url_map (g_app w)) (PATH_INFO env) (REQUEST_METHOD env) = Raises e →
  http_code e = Some c →
  wsgi_app env w
  = (Returns (get_wsgi_response env (get_response get_body e c)),
     pop (in_context env w)).
Proof.
  intros Hm Hc. unfold_py. unfold in_context, match_request. cbn -[url_match].
  rewrite Hm. cbn -[url_match]. rewrite Hc. cbn -[url_match].
  rewrite Hc. reflexivity.
Qed.

(** [OPTIONS] on a rule with automatic options is answered by the framework. *)
Lemma wsgi_app_automatic_options env w r args :
  url_match (url_map (g_app w)) (PATH_INFO env) (REQUEST_METHOD env) = Returns (r, args) →
  provide_automatic_options r = true →
  upper (REQUEST_METHOD env) = "OPTIONS" →
  wsgi_app env w
  = (Returns (get_wsgi_response env
       {| status_code := 200; mimetype := "text/html";
          allow := allowed_methods (url_map (g_app w)) (PATH_INFO env);
          location := None; data := "" |}),
     pop (in_context env w)).
Proof.
  intros Hm Hpao Hopt. unfold_py. unfold in_context, match_request, method.
  cbn -[url_match allowed_methods]. rewrite Hm. cbn -[url_match allowed_methods].
  rewrite Hpao, Hopt. reflexivity.
Qed.

(** [view_of] is the view that [dispatch_request] calls. *)
Lemma dispatch_request_calls_view env w f args :
  view_of (g_app w) env = Some (f, args) →
  dispatch_request send_from_directory (in_context env w)
  = call send_from_directory f args (in_context env w).
Proof.
  unfold view_of. intros Hv.
  destruct (url_match _ _ _) as [[r args']|e] eqn:Hm; [|done].
  destruct (provide_automatic_options r && _) eqn:Hopt; [done|].
  destruct (view_functions _ !! _) as [f'|] eqn:Hf; [|done].
  simplify_eq.
  unfold_py. unfold in_context, match_request, method. cbn -[url_match call].
  rewrite Hm. cbn -[url_match call]. rewrite Hopt. cbn -[url_match call].
  rewrite Hf. reflexivity.
Qed.

(** A request routed to [home_page] is answered with what it returns. *)
Lemma wsgi_app_home_page env w :
  view_of (g_app w) env = Some (fn_home_page, []) →
  wsgi_app env w
  = (Returns (get_wsgi_response env (Response_init "Hello from my Flask app!")),
     pop (in_context env w)).
Proof.
  intros Hv. pose proof (dispatch_request_calls_view _ _ _ _ Hv) as Hd.
  unfold Serving.wsgi_app, full_dispatch_request, try_finally, try_except, push,
    modify_world.
  unfold mbind, mret, Py_bind, Py_ret. cbn -[dispatch_request in_context].
  fold (in_context env w). rewrite Hd. reflexivity.
Qed.

(** Whatever the request, [wsgi_app] leaves the process as it found it, up
    to the first-request flag and lines appended to the log. *)
Lemma wsgi_app_frame env w :
  ∃ lines,
    snd (wsgi_app env w) =
      {| g_app := g_app (in_context env w);
         request_ctx := request_ctx w;
         log := (log w ++ lines)%list |}.
Proof.
  unfold_py. unfold call, send_static_file, home_page, in_context, match_request, pop.
  unfold_py. cbn -[url_match allowed_methods].
  repeat case_match; simplify_eq; cbn;
    first [ by exists []; rewrite app_nil_r | by eexists [_] ].
Qed.

(** The configuration of the application in every state of a run. *)
Lemma reachable_app n w :
  reachable n w →
  import_name (g_app w) = n ∧
  static_folder (g_app w) = Some "static" ∧
  url_map (g_app w) = url_map (app n) ∧
  view_functions (g_app w) = view_functions (app n).
Proof.
  induction 1 as [w Himport|env w _ IH].
  - rewrite import_module_returns in Himport. by injection Himport as <-.
  - destruct (wsgi_app_frame env w) as [lines ->]. exact IH.
Qed.

(** Which requests reach [home_page]: those for ["/"], and with no
    keyword argument. *)
Lemma routed_to_home_page n w env args :
  reachable n w →
  view_of (g_app w) env = Some (fn_home_page, args) →
  path_part (PATH_INFO env) = "/" ∧ args = [].
Proof.
  intros (_ & _ & Hmap & Hviews)%reachable_app. unfold view_of.
  destruct (url_match _ _ _) as [[r a]|e] eqn:Hm; [|done].
  apply url_match_sound in Hm as (Hr & _ & Hpath).
  destruct (_ && _); [done|].
  destruct (view_functions _ !! _) as [f|] eqn:Hf; [|done].
  intros [= -> ->]. rewrite Hmap in Hr. rewrite Hviews in Hf.
  apply elem_of_cons in Hr as [->|Hr]; [by vm_compute in Hf|].
  apply list_elem_of_singleton in Hr as ->.
  by apply match_root_rule.
Qed.

Lemma view_of_root n w env :
  reachable n w →
  PATH_INFO env = "/" →
  upper (REQUEST_METHOD env) = "GET" ∨ upper (REQUEST_METHOD env) = "HEAD" →
  view_of (g_app w) env = Some (fn_home_page, []).
Proof.
  intros (_ & _ & Hmap & Hviews)%reachable_app Hpath Hmeth. unfold view_of.
  rewrite Hmap, Hviews, Hpath, url_match_root.
  rewrite decide_True by (destruct Hmeth as [-> | ->]; by vm_compute).
  by destruct Hmeth as [-> | ->].
Qed.

End Requests.

(** ** Registration *)

(** Registering a view without [methods], [endpoint] or
    [provide_automatic_options] on an application that has served nothing
    yet: the rule gets [GET], [HEAD] and [OPTIONS], automatic options, and
    the function's name as endpoint. *)
Lemma add_url_rule_defaults self r f :
  got_first_request self = false →
  view_functions self !! dunder_name f = None →
  add_url_rule r None (Some f) None None self =
    Returns {| import_name := import_name self;
               static_folder := static_folder self;
               url_map := url_map self ++
                 [{| rule := r; methods := default_methods;
                     endpoint := dunder_name f;
                     provide_automatic_options := true |}];
               view_functions := <[dunder_name f := f]> (view_functions self);
               got_first_request := false |}.
Proof.
  intros Hfirst Hfree. unfold add_url_rule. rewrite Hfirst, Hfree.
  reflexivity.
Qed.

(** Once a request has been served, registration is refused. *)
Lemma add_url_rule_after_first_request self r ep f pao ms :
  got_first_request self = true →
  ∃ msg, add_url_rule r ep f pao ms self = Raises (AssertionError msg).
Proof. intros Hfirst. unfold add_url_rule. rewrite Hfirst. eauto. Qed.

(** ** The claims *)

Section Claims.

Variable send_from_directory : string → string → outcome Response.
Variable get_body : Exn → string.

Local Abbreviation wsgi_app := (wsgi_app send_from_directory get_body).
Local Abbreviation reachable := (reachable send_from_directory get_body).
Local Abbreviation call := (call send_from_directory).

(** C1.  In every state of a run, a request with method [GET] and path ["/"]
    is answered with status 200, content type [text/html] (so: [text/plain]
    or [text/html]) and the body ["Hello from my Flask app!"], exactly. *)
Theorem get_root_greets n w env :
  reachable n w →
  REQUEST_METHOD env = "GET" →
  PATH_INFO env = "/" →
  ∃ r w',
    wsgi_app env w = (Returns r, w') ∧
    status_code r = 200 ∧
    (mimetype r = "text/plain" ∨ mimetype r = "text/html") ∧
    data r = "Hello from my Flask app!".
Proof.
  intros Hw Hmeth Hpath. eexists _, _. split.
  - apply wsgi_app_home_page.
    eapply view_of_root; [done..|]. left. by rewrite Hmeth.
  - unfold get_wsgi_response, get_app_iter. rewrite Hmeth. cbn. auto.
Qed.

(** C3, amended.  A request whose method is none of [GET], [HEAD],
    [OPTIONS], and likewise a request whose path matches no rule of the URL
    map, is answered with a status other than 200: with 404, 405 or 308. *)
Theorem unrouted_request_not_200 n w env :
  reachable n w →
  upper (REQUEST_METHOD env) ∉ default_methods ∨
    (∀ r, r ∈ url_map (g_app w) →
          match_rule (rule r) (path_part (PATH_INFO env)) = None) →
  ∃ r w',
    wsgi_app env w = (Returns r, w') ∧
    status_code r ≠ 200 ∧
    (status_code r = 404 ∨ status_code r = 405 ∨ status_code r = 308).
Proof.
  intros Hw Hcase.
  destruct (reachable_app _ _ _ _ Hw) as (_ & _ & Hmap & _).
  destruct (url_match (url_map (g_app w)) (PATH_INFO env) (REQUEST_METHOD env))
    as [[r args]|e] eqn:Hm.
  - exfalso. apply url_match_sound in Hm as (Hr & Hmeth & Harg).
    destruct Hcase as [Hnot|Hnone].
    + apply Hnot. rewrite Hmap in Hr.
      apply elem_of_cons in Hr as [->|Hr]; [done|].
      by apply list_elem_of_singleton in Hr as ->.
    + by rewrite (Hnone _ Hr) in Harg.
  - destruct (url_match_raises _ _ _ _ Hm) as (c & Hc & Hcodes).
    eexists _, _. split; [by eapply wsgi_app_routing_error|].
    cbn. split; [|done]. destruct Hcodes as [->|[->| ->]]; done.
Qed.

(** C5.  [home_page] changes nothing: the state after a call is the state
    before it (same application object, same request contexts, same log),
    and what it returns does not depend on the state it runs in.  So for a
    request routed to it the dispatcher's call leaves the state as it was,
    and the request as a whole logs nothing and leaves no context behind. *)
Theorem home_page_no_side_effects :
  (∀ w, snd (home_page w) = w) ∧
  (∀ w1 w2, fst (home_page w1) = fst (home_page w2)) ∧
  (∀ n w env args,
     reachable n w →
     view_of (g_app w) env = Some (fn_home_page, args) →
     snd (dispatch_request send_from_directory (in_context env w))
       = in_context env w ∧
     request_ctx (snd (wsgi_app env w)) = request_ctx w ∧
     log (snd (wsgi_app env w)) = log w).
Proof.
  split_and!; [done..|].
  intros n w env args Hw Hview.
  destruct (routed_to_home_page _ _ _ _ _ _ Hw Hview) as [_ ->].
  rewrite (dispatch_request_calls_view _ _ _ _ _ Hview).
  by rewrite (wsgi_app_home_page _ _ _ _ Hview).
Qed.

(** C6.  [home_page] never raises; and a request that the dispatcher routes
    to it comes back as a 200 response: the call returns, nothing is turned
    into an error response, nothing is logged. *)
Theorem home_page_cannot_fail n w env args :
  reachable n w →
  view_of (g_app w) env = Some (fn_home_page, args) →
  (∀ w0, ∃ s, fst (home_page w0) = Returns s) ∧
  (∃ s, call fn_home_page args (in_context env w)
        = (Returns (RvStr s), in_context env w)) ∧
  (∃ r w', wsgi_app env w = (Returns r, w') ∧
           status_code r = 200 ∧ log w' = log w).
Proof.
  intros Hw Hview.
  destruct (routed_to_home_page _ _ _ _ _ _ Hw Hview) as [_ ->].
  split_and!.
  - intros w0. by eexists.
  - by eexists.
  - eexists _, _. split; [by apply wsgi_app_home_page|]. done.
Qed.

(** C7, amended.  Importing the module builds the routing table, and no
    request changes it afterwards.  It holds the one route that [app.py]
    registers, ["/"] to [home_page], after the route for static files that
    the [Flask] constructor registers; [home_page] is reached through the
    rule ["/"] only. *)
Theorem url_map_fixed n w :
  reachable n w →
  module_body n = Returns (app n, fn_home_page) ∧
  url_map (g_app w) = [static_rule; root_rule] ∧
  view_functions (g_app w)
    = <["home_page" := fn_home_page]> (<["static" := fn_static]> ∅) ∧
  (∀ r, r ∈ url_map (g_app w) →
        view_functions (g_app w) !! endpoint r = Some fn_home_page ↔ r = root_rule).
Proof.
  intros (_ & _ & Hmap & Hviews)%reachable_app.
  rewrite Hmap, Hviews. split_and!; [done..|].
  intros r Hr.
  apply elem_of_cons in Hr as [->|Hr]; [by split|].
  by apply list_elem_of_singleton in Hr as ->.
Qed.

(** C9.  The decorator is applied without [methods], so the rule ["/"]
    carries the default method set [GET], [HEAD], [OPTIONS].  On ["/"]
    exactly the requests with one of these methods are answered 200, a
    [HEAD] request with an empty body; every other method is answered 405
    with [Allow] listing the three. *)
Theorem root_default_methods n w env :
  reachable n w →
  PATH_INFO env = "/" →
  (∃ app0, Flask_init n = Returns app0 ∧
           route "/" None fn_home_page app0 = Returns (fn_home_page, app n)) ∧
  root_rule ∈ url_map (g_app w) ∧
  methods root_rule = {["GET"; "HEAD"; "OPTIONS"]} ∧
  ∃ r w',
    wsgi_app env w = (Returns r, w') ∧
    (upper (REQUEST_METHOD env) ∈ methods root_rule → status_code r = 200) ∧
    (REQUEST_METHOD env = "HEAD" → status_code r = 200 ∧ data r = "") ∧
    (upper (REQUEST_METHOD env) ∉ methods root_rule →
       status_code r = 405 ∧ allow r = methods root_rule).
Proof.
  intros Hw Hpath.
  destruct (reachable_app _ _ _ _ Hw) as (_ & _ & Hmap & Hviews).
  split_and!; [by eexists| rewrite Hmap; set_solver | done |].
  change (methods root_rule) with default_methods.
  assert (Hm := url_match_root n (REQUEST_METHOD env)).
  rewrite <- Hmap, <- Hpath in Hm.
  destruct (decide (upper (REQUEST_METHOD env) ∈ default_methods)) as [Hin|Hnin].
  - assert (upper (REQUEST_METHOD env) = "OPTIONS" ∨
            (upper (REQUEST_METHOD env) = "GET" ∨ upper (REQUEST_METHOD env) = "HEAD"))
      as [Hopt|Hview].
    { unfold default_methods in Hin.
      apply elem_of_union in Hin as [Hin|Hin%elem_of_singleton]; [|by left].
      apply elem_of_union in Hin as [Hin%elem_of_singleton|Hin%elem_of_singleton];
        auto. }
    + eexists _, _. split; [by eapply wsgi_app_automatic_options|].
      split_and!; [done| |done].
      intros Hhead. by rewrite Hhead in Hopt.
    + eexists _, _. split; [by eapply wsgi_app_home_page, view_of_root|].
      split_and!; [done| |done].
      intros Hhead. unfold get_wsgi_response, get_app_iter. by rewrite Hhead.
  - eexists _, _. split; [by eapply wsgi_app_routing_error|].
    split_and!; [done| |done].
    intros Hhead. by rewrite Hhead in Hnin.
Qed.

End Claims.

(** C4.  Two [GET /] requests, in the same run or in two runs of the
    process, at any point of either run, get the same body, the literal
    ["Hello from my Flask app!"]; and [home_page] itself returns the same
    value in any two states. *)
Theorem greeting_deterministic
    (sfd1 sfd2 : string → string → outcome Response) (gb1 gb2 : Exn → string)
    n1 n2 w1 w2 env1 env2 :
  reachable sfd1 gb1 n1 w1 →
  reachable sfd2 gb2 n2 w2 →
  REQUEST_METHOD env1 = "GET" ∧ PATH_INFO env1 = "/" →
  REQUEST_METHOD env2 = "GET" ∧ PATH_INFO env2 = "/" →
  fst (home_page w1) = fst (home_page w2) ∧
  ∃ r1 w1' r2 w2',
    wsgi_app sfd1 gb1 env1 w1 = (Returns r1, w1') ∧
    wsgi_app sfd2 gb2 env2 w2 = (Returns r2, w2') ∧
    data r1 = "Hello from my Flask app!" ∧
    data r2 = data r1.
Proof.
  intros Hw1 Hw2 [Hm1 Hp1] [Hm2 Hp2]. split; [done|].
  eexists _, _, _, _. split_and!.
  - apply wsgi_app_home_page.
    eapply view_of_root; [done..|]. left. by rewrite Hm1.
  - apply wsgi_app_home_page.
    eapply view_of_root; [done..|]. left. by rewrite Hm2.
  - unfold get_wsgi_response, get_app_iter. by rewrite Hm1.
  - unfold get_wsgi_response, get_app_iter. by rewrite Hm1, Hm2.
Qed.

(** C10.  What [home_page] returns does not depend on the request: for any
    two requests that the dispatcher routes to it, whatever their headers,
    query strings and bodies, and in whatever states, the view returns the
    same string; and the two responses are equal as soon as the two
    requests have the same method. *)
Theorem home_page_ignores_request
    (sfd1 sfd2 : string → string → outcome Response) (gb1 gb2 : Exn → string)
    n1 n2 w1 w2 env1 env2 args1 args2 :
  reachable sfd1 gb1 n1 w1 →
  reachable sfd2 gb2 n2 w2 →
  view_of (g_app w1) env1 = Some (fn_home_page, args1) →
  view_of (g_app w2) env2 = Some (fn_home_page, args2) →
  fst (dispatch_request sfd1 (in_context env1 w1))
    = Returns (RvStr "Hello from my Flask app!") ∧
  fst (dispatch_request sfd2 (in_context env2 w2))
    = fst (dispatch_request sfd1 (in_context env1 w1)) ∧
  (REQUEST_METHOD env1 = REQUEST_METHOD env2 →
   fst (wsgi_app sfd1 gb1 env1 w1) = fst (wsgi_app sfd2 gb2 env2 w2)).
Proof.
  intros Hw1 Hw2 Hv1 Hv2.
  destruct (routed_to_home_page _ _ _ _ _ _ Hw1 Hv1) as [_ ->].
  destruct (routed_to_home_page _ _ _ _ _ _ Hw2 Hv2) as [_ ->].
  rewrite (dispatch_request_calls_view _ _ _ _ _ Hv1).
  rewrite (dispatch_request_calls_view _ _ _ _ _ Hv2).
  split_and!; [done..|].
  intros Hmeth.
  rewrite (wsgi_app_home_page _ _ _ _ Hv1), (wsgi_app_home_page _ _ _ _ Hv2).
  unfold get_wsgi_response. cbn. by rewrite Hmeth.
Qed.

(** ** Instances *)

(** The first state after the import: one [GET /] has been served. *)
Lemma served_once_reachable :
  reachable no_static_files plain_error_page "app"
    (snd (wsgi_app no_static_files plain_error_page get_root (imported "app"))).
Proof. by apply reach_request, reach_import. Qed.

Lemma get_root_greets_witness :
  ∃ r w',
    wsgi_app no_static_files plain_error_page get_root (imported "app")
      = (Returns r, w') ∧
    status_code r = 200 ∧
    (mimetype r = "text/plain" ∨ mimetype r = "text/html") ∧
    data r = "Hello from my Flask app!".
Proof.
  apply (get_root_greets no_static_files plain_error_page "app");
    [by apply reach_import | reflexivity | reflexivity].
Defined.

(** C3 as stated fails: [HEAD /] is not [GET /] and is answered 200. *)
Lemma head_root_is_200 :
  (REQUEST_METHOD (bare_request "HEAD" "/"), PATH_INFO (bare_request "HEAD" "/"))
    ≠ ("GET", "/") ∧
  ∃ r w',
    wsgi_app no_static_files plain_error_page (bare_request "HEAD" "/")
      (imported "app") = (Returns r, w') ∧
    status_code r = 200.
Proof.
  split; [done|]. eexists _, _. split; [by vm_compute|]. reflexivity.
Qed.

Lemma unrouted_request_not_200_witness :
(upper (REQUEST_METHOD (bare_request "POST" "/")) ∉ default_methods) ∧
  ∃ r w',
    wsgi_app no_static_files plain_error_page (bare_request "POST" "/")
      (imported "app") = (Returns r, w') ∧
    status_code r ≠ 200 ∧
    (status_code r = 404 ∨ status_code r = 405 ∨ status_code r = 308).
Proof.
  assert (H : upper (REQUEST_METHOD (bare_request "POST" "/")) ∉ default_methods)
    by (by vm_compute).
  split; [exact H|].
  apply (unrouted_request_not_200 no_static_files plain_error_page "app");
    [by apply reach_import | left; exact H].
Defined.

Lemma home_page_no_side_effects_witness :
  snd (dispatch_request no_static_files (in_context busy_get_root (imported "app")))
    = in_context busy_get_root (imported "app") ∧
  request_ctx (snd (wsgi_app no_static_files plain_error_page busy_get_root
                      (imported "app"))) = request_ctx (imported "app") ∧
  log (snd (wsgi_app no_static_files plain_error_page busy_get_root
              (imported "app"))) = log (imported "app").
Proof.
  apply (proj2 (proj2 (home_page_no_side_effects no_static_files plain_error_page))
           "app" (imported "app") busy_get_root []);
    [by apply reach_import | reflexivity].
Defined.

Lemma home_page_cannot_fail_witness :
  (∀ w0, ∃ s, fst (home_page w0) = Returns s) ∧
  (∃ s, call no_static_files fn_home_page [] (in_context get_root (imported "app"))
        = (Returns (RvStr s), in_context get_root (imported "app"))) ∧
  (∃ r w',
     wsgi_app no_static_files plain_error_page get_root (imported "app")
       = (Returns r, w') ∧
     status_code r = 200 ∧ log w' = log (imported "app")).
Proof.
  apply (home_page_cannot_fail no_static_files plain_error_page "app");
    [by apply reach_import | reflexivity].
Defined.

(** C7 as stated fails: after the import the URL map holds two rules, and
    one of them leads from a path other than ["/"] to a function other than
    [home_page]. *)
Lemma url_map_holds_static_rule :
  ∃ a f,
    module_body "app" = Returns (a, f) ∧
    List.length (url_map a) = 2%nat ∧
    ∃ r, r ∈ url_map a ∧ rule r ≠ "/" ∧
         view_functions a !! endpoint r = Some fn_static.
Proof.
  eexists _, _. split; [reflexivity|]. split; [reflexivity|].
  exists static_rule. split_and!; [set_solver|done|done].
Qed.

Lemma url_map_fixed_witness :
  url_map (g_app (snd (wsgi_app no_static_files plain_error_page get_root
                         (imported "app"))))
    = [static_rule; root_rule].
Proof.
  exact (proj1 (proj2
    (url_map_fixed no_static_files plain_error_page "app" _ served_once_reachable))).
Defined.

Lemma root_default_methods_witness :
  ∃ r w',
    wsgi_app no_static_files plain_error_page (bare_request "HEAD" "/")
      (imported "app") = (Returns r, w') ∧
    (upper "HEAD" ∈ methods root_rule → status_code r = 200) ∧
    ("HEAD" = "HEAD" → status_code r = 200 ∧ data r = "") ∧
    (upper "HEAD" ∉ methods root_rule →
       status_code r = 405 ∧ allow r = methods root_rule).
Proof.
  apply (root_default_methods no_static_files plain_error_page "app"
           (imported "app") (bare_request "HEAD" "/"));
    [by apply reach_import | reflexivity].
Defined.

Lemma greeting_deterministic_witness :
  ∃ r1 w1' r2 w2',
    wsgi_app no_static_files plain_error_page get_root (imported "app")
      = (Returns r1, w1') ∧
    wsgi_app no_static_files blank_error_page busy_get_root
      (snd (wsgi_app no_static_files blank_error_page get_root
              (imported "__main__")))
      = (Returns r2, w2') ∧
    data r1 = "Hello from my Flask app!" ∧
    data r2 = data r1.
Proof.
  apply (greeting_deterministic no_static_files no_static_files
           plain_error_page blank_error_page "app" "__main__");
    [by apply reach_import | by apply reach_request, reach_import
    | split; reflexivity | split; reflexivity].
Defined.

Lemma home_page_ignores_request_witness :
  fst (dispatch_request no_static_files (in_context busy_get_root (imported "app")))
    = fst (dispatch_request no_static_files (in_context get_root (imported "app"))) ∧
  (REQUEST_METHOD get_root = REQUEST_METHOD busy_get_root →
   fst (wsgi_app no_static_files plain_error_page get_root (imported "app"))
   = fst (wsgi_app no_static_files plain_error_page busy_get_root (imported "app"))).
Proof.
  apply (home_page_ignores_request no_static_files no_static_files
           plain_error_page plain_error_page "app" "app"
           (imported "app") (imported "app") get_root busy_get_root [] []);
    [by apply reach_import | by apply reach_import | reflexivity | reflexivity].
Defined.

(** ** Requests in sequence *)

(** Any number of [GET /] requests served one after another, from any state
    of a run: one response per request, each of them the greeting. *)
Lemma serve_get_root sfd gb n envs : ∀ w,
  reachable sfd gb n w →
  Forall (λ env, REQUEST_METHOD env = "GET" ∧ PATH_INFO env = "/") envs →
  fst (serve sfd gb envs w)
  = Returns (replicate (List.length envs) (Response_init "Hello from my Flask app!")).
Proof.
  induction envs as [|env envs IH]; intros w Hw Hall; [done|].
  apply Forall_cons in Hall as [[Hmeth Hpath] Hall].
  assert (Hv : view_of (g_app w) env = Some (fn_home_page, [])).
  { eapply view_of_root; [done..|]. left. by rewrite Hmeth. }
  pose proof (reach_request sfd gb n env w Hw) as Hw'.
  specialize (IH _ Hw' Hall).
  cbn [serve]. unfold mbind, Py_bind at 1.
  rewrite (wsgi_app_home_page sfd gb _ _ Hv) in *. cbn [snd] in IH.
  unfold mbind, Py_bind at 1.
  destruct (serve sfd gb envs _) as [[rs|e] w'']; cbn in IH; [|done].
  injection IH as ->. cbn.
  unfold get_wsgi_response, get_app_iter. by rewrite Hmeth.
Qed.

(** ** The scenarios of the specification, evaluated *)

Example scenario_get_root :
  fst (wsgi_app no_static_files plain_error_page get_root (imported "app"))
  = Returns {| status_code := 200; mimetype := "text/html"; allow := ∅;
               location := None; data := "Hello from my Flask app!" |}.
Proof. reflexivity. Qed.

Example scenario_post_root :
  fst (wsgi_app no_static_files plain_error_page (bare_request "POST" "/")
         (imported "app"))
  = Returns {| status_code := 405; mimetype := "text/html";
               allow := default_methods; location := None;
               data := "Method Not Allowed" |}.
Proof. by vm_compute. Qed.

Example scenario_get_nonexistent :
  fst (wsgi_app no_static_files plain_error_page (bare_request "GET" "/nonexistent")
         (imported "app"))
  = Returns {| status_code := 404; mimetype := "text/html"; allow := ∅;
               location := None; data := "Not Found" |}.
Proof. reflexivity. Qed.

Example scenario_options_root :
  fst (wsgi_app no_static_files plain_error_page (bare_request "OPTIONS" "/")
         (imported "app"))
  = Returns {| status_code := 200; mimetype := "text/html";
               allow := default_methods; location := None; data := "" |}.
Proof. by vm_compute. Qed.

(** A second request finds the flag set and leaves the process exactly as
    it found it. *)
Example second_request_changes_nothing :
  let w := snd (wsgi_app no_static_files plain_error_page get_root (imported "app")) in
  snd (wsgi_app no_static_files plain_error_page busy_get_root w) = w.
Proof. reflexivity. Qed.

(** ** Beyond the greeting: every request, every state *)

Section Outcomes.
Variable send_from_directory : string → string → outcome Response.
Variable get_body : Exn → string.

Local Abbreviation wsgi_app := (wsgi_app send_from_directory get_body).
Local Abbreviation reachable := (reachable send_from_directory get_body).
Local Abbreviation call := (call send_from_directory).
Local Abbreviation dispatch_request := (dispatch_request send_from_directory).

Lemma call_unfold f args w :
  call f args w =
    (match f, args with
     | fn_home_page, [] => Returns (RvStr "Hello from my Flask app!")
     | fn_home_page, _ :: _ =>
         Raises (TypeError "home_page() got an unexpected keyword argument")
     | fn_static, [(k, v)] =>
         if String.eqb k "filename"
         then match static_folder (g_app w) with
              | None => Raises (RuntimeError "'static_folder' must be set to serve static_files.")
              | Some folder =>
                  match send_from_directory folder v with
                  | Returns r => Returns (RvResponse r)
                  | Raises e => Raises e
                  end
              end
         else Raises (TypeError "send_static_file() got an unexpected keyword argument")
     | fn_static, _ =>
         Raises (TypeError "send_static_file() missing or unexpected arguments")
     end, w).
Proof.
  unfold Serving.call, send_static_file, home_page, get_world, raise.
  unfold mbind, mret, Py_bind, Py_ret.
  destruct f, args as [|[k v] [|]]; cbn; try done.
  destruct (String.eqb k "filename"); cbn; [|done].
  destruct (static_folder (g_app w)); cbn; [|done].
  by destruct (send_from_directory _ _).
Qed.

Lemma call_pure f args w : snd (call f args w) = w.
Proof. by rewrite call_unfold. Qed.

Lemma call_never_exception_value f args w e :
  fst (call f args w) ≠ Returns (RvException e).
Proof.
  rewrite call_unfold. cbn. repeat case_match; done.
Qed.

Lemma dispatch_request_unfold env w :
  dispatch_request (in_context env w) =
    match url_match (url_map (g_app w)) (PATH_INFO env) (REQUEST_METHOD env) with
    | Raises e => (Raises e, in_context env w)
    | Returns (r, args) =>
        if provide_automatic_options r && String.eqb (upper (REQUEST_METHOD env)) "OPTIONS"
        then (Returns (RvResponse
                {| status_code := 200; mimetype := "text/html";
                   allow := allowed_methods (url_map (g_app w)) (PATH_INFO env);
                   location := None; data := "" |}), in_context env w)
        else match view_functions (g_app w) !! endpoint r with
             | Some f => call f args (in_context env w)
             | None => (Raises (KeyError (endpoint r)), in_context env w)
             end
    end.
Proof.
  unfold Serving.dispatch_request, make_default_options_response, current_request,
    get_world, raise, in_context, match_request, method.
  unfold mbind, mret, Py_bind, Py_ret. cbn -[url_match allowed_methods Serving.call].
  destruct (url_match _ _ _) as [[r args]|e]; cbn -[url_match allowed_methods Serving.call]; [|done].
  destruct (provide_automatic_options r && _); cbn -[url_match allowed_methods Serving.call]; [done|].
  by destruct (view_functions _ !! _).
Qed.

Lemma dispatch_request_pure env w :
  snd (dispatch_request (in_context env w)) = in_context env w.
Proof.
  rewrite dispatch_request_unfold.
  destruct (url_match _ _ _) as [[r args]|e]; [|done].
  destruct (_ && _); [done|].
  destruct (_ !! _); [apply call_pure|done].
Qed.

Lemma dispatch_request_never_exception_value env w e :
  fst (dispatch_request (in_context env w)) ≠ Returns (RvException e).
Proof.
  rewrite dispatch_request_unfold.
  destruct (url_match _ _ _) as [[r args]|e']; [|done].
  destruct (_ && _); [done|].
  destruct (_ !! _); [apply call_never_exception_value|done].
Qed.

Lemma environ_match_request self env :
  environ (match_request self (request_context env)) = env.
Proof. unfold match_request. by destruct (url_match _ _ _) as [[??]|?]. Qed.

(** [wsgi_app] in terms of what [dispatch_request] produced. *)
Lemma wsgi_app_of_dispatch env w :
  wsgi_app env w =
    match fst (dispatch_request (in_context env w)) with
    | Returns (RvStr s) =>
        (Returns (get_wsgi_response env (Response_init s)), pop (in_context env w))
    | Returns (RvResponse r) =>
        (Returns (get_wsgi_response env r), pop (in_context env w))
    | Returns (RvException e) | Raises e =>
        match http_code e with
        | Some c =>
            (Returns (get_wsgi_response env (get_response get_body e c)),
             pop (in_context env w))
        | None =>
            (Returns (get_wsgi_response env (get_response get_body InternalServerError 500)),
             {| g_app := g_app (in_context env w);
                request_ctx := request_ctx w;
                log := (log w ++ [("Exception on " ++ ("/" ++ lstrip_slash (PATH_INFO env))
                                    ++ " [" ++ upper (REQUEST_METHOD env) ++ "]")%string])%list |})
        end
    end.
Proof.
  pose proof (dispatch_request_pure env w) as Hpure.
  pose proof (dispatch_request_never_exception_value env w) as Hnever.
  unfold Serving.wsgi_app, full_dispatch_request, try_finally, try_except, push,
    modify_world.
  unfold mbind, mret, Py_bind, Py_ret. cbn -[Serving.dispatch_request in_context].
  fold (in_context env w).
  destruct (dispatch_request (in_context env w)) as [o w'] eqn:Hd.
  cbn in Hpure, Hnever. subst w'.
  destruct o as [[s|r|e]|e]; cbn.
  - done.
  - done.
  - by destruct (Hnever e).
  - unfold handle_user_exception, finalize_request, make_response, handle_exception,
      current_request, get_world, modify_world, raise.
    unfold mbind, mret, Py_bind, Py_ret.
    destruct (http_code e) as [c|] eqn:Hc; cbn; [by rewrite Hc|].
    unfold path, method, pop. cbn. by rewrite environ_match_request.
Qed.


(** X1.  Every request is answered: whatever the request and whatever the
    state, [wsgi_app] returns a response and raises nothing.  It leaves the
    application object as it was up to the first-request flag, leaves the
    stack of request contexts as it was, and appends at most one line to the
    log, and that only together with a 500 response. *)
Theorem every_request_answered env w :
  ∃ r lines,
    wsgi_app env w =
      (Returns r,
       {| g_app := g_app (in_context env w);
          request_ctx := request_ctx w;
          log := (log w ++ lines)%list |}) ∧
    (lines = [] ∨ (status_code r = 500 ∧ List.length lines = 1%nat)).
Proof.
  rewrite wsgi_app_of_dispatch.
  destruct (fst (dispatch_request (in_context env w))) as [[s|r|e]|e].
  1,2: eexists _, []; rewrite app_nil_r; split; [reflexivity|by left].
  all: destruct (http_code e) as [c|].
  1,3: eexists _, []; rewrite app_nil_r; split; [reflexivity|by left].
  all: eexists _, [_]; split; [reflexivity|by right].
Qed.

Lemma dispatch_request_respects env w1 w2 :
  url_map (g_app w1) = url_map (g_app w2) →
  view_functions (g_app w1) = view_functions (g_app w2) →
  static_folder (g_app w1) = static_folder (g_app w2) →
  fst (dispatch_request (in_context env w1)) = fst (dispatch_request (in_context env w2)).
Proof.
  intros Hmap Hviews Hstatic. rewrite !dispatch_request_unfold, Hmap, Hviews.
  destruct (url_match _ _ _) as [[r args]|e]; [|done].
  destruct (_ && _); [done|].
  destruct (_ !! _) as [f|]; [|done].
  rewrite !call_unfold. cbn. by rewrite Hstatic.
Qed.

Lemma wsgi_app_respects env w1 w2 :
  url_map (g_app w1) = url_map (g_app w2) →
  view_functions (g_app w1) = view_functions (g_app w2) →
  static_folder (g_app w1) = static_folder (g_app w2) →
  fst (wsgi_app env w1) = fst (wsgi_app env w2).
Proof.
  intros Hmap Hviews Hstatic. rewrite !wsgi_app_of_dispatch.
  rewrite (dispatch_request_respects env w1 w2) by done.
  destruct (fst (dispatch_request (in_context env w2))) as [[s|r|e]|e]; try done.
  all: by destruct (http_code e).
Qed.

Lemma wsgi_app_returns env w : ∃ r, fst (wsgi_app env w) = Returns r.
Proof.
  rewrite wsgi_app_of_dispatch.
  destruct (fst (dispatch_request (in_context env w))) as [[s|r|e]|e]; cbn; eauto.
  all: destruct (http_code e); cbn; eauto.
Qed.

Lemma reachable_same_answer n w1 w2 env :
  reachable n w1 → reachable n w2 →
  fst (wsgi_app env w1) = fst (wsgi_app env w2).
Proof.
  intros (_ & Hs1 & Hm1 & Hv1)%reachable_app (_ & Hs2 & Hm2 & Hv2)%reachable_app.
  apply wsgi_app_respects; congruence.
Qed.

(** X2.  The answer to a request does not depend on what the process has
    served before: in every state of a run it is the answer the freshly
    imported application gives. *)
Theorem response_independent_of_history n w env :
  reachable n w →
  fst (wsgi_app env w) = fst (wsgi_app env (imported n)).
Proof.
  intros Hw. apply (reachable_same_answer n); [done|].
  apply reach_import, import_module_returns.
Qed.

(** X5.  Requests of any kind served one after another: one response per
    request, none raised, each the response the request would have got had
    it been served alone in the starting state; the state at the end is
    again a state of the run. *)
Theorem serve_answers_each n envs : ∀ w,
  reachable n w →
  ∃ rs w',
    serve send_from_directory get_body envs w = (Returns rs, w') ∧
    reachable n w' ∧
    Forall2 (λ env r, fst (wsgi_app env w) = Returns r) envs rs.
Proof.
  induction envs as [|env envs IH]; intros w Hw.
  - eexists [], w. by split_and!.
  - destruct (wsgi_app_returns env w) as [r Hr].
    pose proof (reach_request _ _ n env w Hw) as Hw'.
    destruct (IH _ Hw') as (rs & w'' & Hrs & Hw'' & Hall).
    exists (r :: rs), w''. split_and!; [|done|].
    + cbn [serve]. unfold mbind, Py_bind at 1.
      destruct (wsgi_app env w) as [o w1]. cbn in Hr, Hrs. subst o.
      unfold mbind, Py_bind at 1. by rewrite Hrs.
    + constructor; [done|].
      eapply Forall2_impl; [exact Hall|]. intros env' r' <-.
      by apply (reachable_same_answer n).
Qed.


Lemma url_match_path_part rules p q m :
  path_part p = path_part q → url_match rules p m = url_match rules q m.
Proof. unfold url_match. by intros ->. Qed.

Lemma url_match_slashes n p m :
  path_part p = "/" →
  url_match (url_map (app n)) p m =
    if decide (upper m ∈ default_methods) then Returns (root_rule, [])
    else Raises (MethodNotAllowed default_methods).
Proof.
  intros Hp. rewrite <- (url_match_root n). by apply url_match_path_part.
Qed.

(** X3.  The dispatcher calls [home_page] for exactly the requests whose
    path is made of slashes only (["/"], ["//"], ...) and whose method,
    upper-cased, is [GET] or [HEAD]; the response is then 200, [text/html],
    with the greeting as body, or the empty body when the method is
    literally [HEAD]. *)
Theorem home_page_routing_exact n w env :
  reachable n w →
  (view_of (g_app w) env = Some (fn_home_page, []) ↔
   path_part (PATH_INFO env) = "/" ∧
   (upper (REQUEST_METHOD env) = "GET" ∨ upper (REQUEST_METHOD env) = "HEAD")) ∧
  (view_of (g_app w) env = Some (fn_home_page, []) →
   fst (wsgi_app env w) =
     Returns {| status_code := 200; mimetype := "text/html"; allow := ∅;
                location := None;
                data := if String.eqb (REQUEST_METHOD env) "HEAD" then ""
                        else "Hello from my Flask app!" |}).
Proof.
  intros Hw. destruct (reachable_app _ _ _ _ Hw) as (_ & _ & Hmap & Hviews).
  split; [split|].
  - intros Hview.
    destruct (routed_to_home_page _ _ _ _ _ _ Hw Hview) as [Hpath _].
    split; [done|]. revert Hview. unfold view_of.
    rewrite Hmap, Hviews, (url_match_slashes n _ _ Hpath).
    destruct (decide _) as [Hin|]; [|done]. cbn.
    destruct (String.eqb_spec (upper (REQUEST_METHOD env)) "OPTIONS") as [|Hne]; [done|].
    intros _. unfold default_methods in Hin.
    apply elem_of_union in Hin as [Hin|Hin%elem_of_singleton]; [|done].
    apply elem_of_union in Hin as [Hin%elem_of_singleton|Hin%elem_of_singleton]; auto.
  - intros [Hpath Hmeth]. unfold view_of.
    rewrite Hmap, Hviews, (url_match_slashes n _ _ Hpath).
    rewrite decide_True by (destruct Hmeth as [-> | ->]; by vm_compute).
    by destruct Hmeth as [-> | ->].
  - intros Hview. rewrite (wsgi_app_home_page _ _ _ _ Hview). cbn.
    unfold get_wsgi_response, get_app_iter. cbn.
    by destruct (String.eqb _ _).
Qed.

(** X4.  [OPTIONS] on the root path is answered by the framework without
    calling [home_page]: status 200, empty body, [Allow] holding [GET],
    [HEAD] and [OPTIONS]. *)
Theorem options_root_answer n w env :
  reachable n w →
  path_part (PATH_INFO env) = "/" →
  upper (REQUEST_METHOD env) = "OPTIONS" →
  view_of (g_app w) env = None ∧
  fst (wsgi_app env w) =
    Returns {| status_code := 200; mimetype := "text/html";
               allow := {["GET"; "HEAD"; "OPTIONS"]};
               location := None; data := "" |}.
Proof.
  intros Hw Hpath Hmeth. destruct (reachable_app _ _ _ _ Hw) as (_ & _ & Hmap & Hviews).
  assert (Hm : url_match (url_map (g_app w)) (PATH_INFO env) (REQUEST_METHOD env)
               = Returns (root_rule, [])).
  { rewrite Hmap, (url_match_slashes n _ _ Hpath), Hmeth. by rewrite decide_True by (by vm_compute). }
  split.
  - unfold view_of. rewrite Hm, Hmeth. done.
  - rewrite (wsgi_app_automatic_options _ _ _ _ _ _ Hm eq_refl Hmeth). cbn.
    unfold get_wsgi_response, get_app_iter. cbn.
    assert (allowed_methods (url_map (g_app w)) (PATH_INFO env) = default_methods) as ->.
    { unfold allowed_methods. rewrite Hmap, (url_match_slashes n _ _ Hpath).
      by rewrite decide_False by (by vm_compute). }
    by destruct (String.eqb _ _).
Qed.












End Outcomes.

(** ** Registration through [route] *)





(** ** Further instances *)

Lemma response_independent_of_history_witness :
  fst (wsgi_app no_static_files plain_error_page (bare_request "POST" "/")
         (snd (wsgi_app no_static_files plain_error_page get_root (imported "app"))))
  = fst (wsgi_app no_static_files plain_error_page (bare_request "POST" "/")
           (imported "app")).
Proof.
  apply (response_independent_of_history no_static_files plain_error_page "app").
  exact served_once_reachable.
Defined.

Lemma home_page_routing_exact_witness :
  view_of (g_app (imported "app")) (bare_request "head" "//")
    = Some (fn_home_page, []).
Proof.
  apply (proj1 (home_page_routing_exact no_static_files plain_error_page "app"
                  (imported "app") (bare_request "head" "//")
                  (reach_import _ _ "app" _ eq_refl))).
  split; [reflexivity|right; reflexivity].
Defined.

Lemma options_root_answer_witness :
  view_of (g_app (imported "app")) (bare_request "OPTIONS" "/") = None ∧
  fst (wsgi_app no_static_files plain_error_page (bare_request "OPTIONS" "/")
         (imported "app"))
  = Returns {| status_code := 200; mimetype := "text/html";
               allow := {["GET"; "HEAD"; "OPTIONS"]};
               location := None; data := "" |}.
Proof.
  apply (options_root_answer no_static_files plain_error_page "app");
    [by apply reach_import | reflexivity | reflexivity].
Defined.

Lemma serve_answers_each_witness :
  ∃ rs w',
    serve no_static_files plain_error_page
      [get_root; bare_request "POST" "/"; bare_request "GET" "/static/style.css"]
      (imported "app") = (Returns rs, w') ∧
    reachable no_static_files plain_error_page "app" w' ∧
    Forall2 (λ env r,
               fst (wsgi_app no_static_files plain_error_page env (imported "app"))
               = Returns r)
      [get_root; bare_request "POST" "/"; bare_request "GET" "/static/style.css"] rs.
Proof.
  apply (serve_answers_each no_static_files plain_error_page "app").
  by apply reach_import.
Defined.




